(** * Jobly: the filter-clause and partial-update compilers

    A shallow embedding of the query-compilation code of the Jobly backend:

    - [Company.createFilterSql] and [Company.findAll]  (models/company.js),
    - [Job.createFilterSql], [Job.findAll] and [Job.update]  (models/job.js),
    - [sqlForPartialUpdate]  (helpers/sql.js, known here through its callers),
    - [create], [get], [update] and [remove] of the two models,
    - the GET and DELETE handlers of routes/jobs.js.

    The functions are JavaScript, so the embedding starts with the fragment of
    the language they rely on: primitive values, truthiness, the conversion a
    template literal applies, the relational operator [<], [Array.push] and
    [Array.join].  Asynchronous functions are trees of database requests that
    end in a resolved value or a rejection. *)

From Stdlib Require Import ZArith Ascii List Lia DecimalString DecimalNat.
From Stdlib Require String.
From stdpp Require Import base option list gmap strings.
Import ListNotations.

(* ================================================================== *)
(** ** The JavaScript fragment *)
(* ================================================================== *)

Module Js.

(** Numbers.  The bounds the filters receive are head counts and salaries:
    the model has the integers and [NaN], which is what [undefined] converts
    to.  [Int z] stands for the Number [z] when its magnitude is below 2^53:
    these a double holds exactly and [ToString] writes them in plain decimal.
    Larger integers, fractions and the infinities are outside the model. *)
Inductive number : Type :=
| NaN
| Int (z : Z).

(** Primitive values: what a query string, a JSON body or a direct call
    hands to the models.  A string is a sequence of 8-bit code units, so the
    strings of the model are those whose characters are below U+0100; on
    these the code units of the language are the same numbers.  Symbols come
    with [wideValue] further down. *)
Inductive value : Type :=
| undefined
| null
| Bool (b : bool)
| Num (n : number)
| Str (s : string).

(** [ToBoolean]: the test of [v ? a : b] and [if (v)].  The falsy values are
    [undefined], [null], [false], [0], [NaN] and the empty string. *)
Definition ToBoolean (v : value) : bool :=
  match v with
  | undefined => false
  | null => false
  | Bool b => b
  | Num NaN => false
  | Num (Int z) => negb (z =? 0)%Z
  | Str s => negb (String.eqb s "")
  end.

(** Decimal digits of a natural number, as [arr.length + 1] is printed. *)
Definition nat_to_string (n : nat) : string :=
  NilZero.string_of_uint (Nat.to_uint n).

(** [Number::toString] on the numbers of the model. *)
Definition NumberToString (n : number) : string :=
  match n with
  | NaN => "NaN"
  | Int z => NilZero.string_of_int (Z.to_int z)
  end.

(** [ToString]: the conversion of [`${v}`], which succeeds on every value
    of the model ([ToStringWide] has the case where it throws). *)
Definition ToString (v : value) : string :=
  match v with
  | undefined => "undefined"
  | null => "null"
  | Bool true => "true"
  | Bool false => "false"
  | Num n => NumberToString n
  | Str s => s
  end.

(** [arr.push(x)]: the array after the call and the value of the call, which
    is the new length. *)
Definition push {A : Type} (arr : list A) (x : A) : list A * nat :=
  (arr ++ [x], length arr + 1).

(** [arr.join(sep)] on an array of strings. *)
Definition join (sep : string) (arr : list string) : string :=
  String.concat sep arr.

(** Comparison of two strings by [<]: code unit by code unit, a proper
    prefix being smaller. *)
Fixpoint string_lt (a b : string) : bool :=
  match a, b with
  | _, EmptyString => false
  | EmptyString, String _ _ => true
  | String x a', String y b' =>
      if (nat_of_ascii x <? nat_of_ascii y)%nat then true
      else if (nat_of_ascii y <? nat_of_ascii x)%nat then false
      else string_lt a' b'
  end.

Section Relational.

(** [StringToNumber], the numeric value of a string ("12", " 0x1f ", "1e3",
    ...).  The models reach it only when [<] compares a string with a
    value that is not a string; it is left abstract. *)
Variable StringToNumber : string -> number.

Definition ToNumber (v : value) : number :=
  match v with
  | undefined => NaN
  | null => Int 0
  | Bool true => Int 1
  | Bool false => Int 0
  | Num n => n
  | Str s => StringToNumber s
  end.

(** [x < y] as the test of an [if]: two strings are compared as strings,
    anything else as numbers, and a comparison with [NaN] is [undefined],
    which the test takes as false. *)
Definition lt (x y : value) : bool :=
  match x, y with
  | Str a, Str b => string_lt a b
  | _, _ =>
      match ToNumber x, ToNumber y with
      | Int nx, Int ny => (nx <? ny)%Z
      | _, _ => false
      end
  end.

End Relational.

End Js.

Import Js.

(* ================================================================== *)
(** ** Errors, promises and the database *)
(* ================================================================== *)

(** The two error classes of expressError.js that the models throw, and the
    [TypeError] of the language itself. *)
Inductive error : Type :=
| BadRequestError (message : string)
| NotFoundError (message : string)
| TypeError (message : string).

(** Outcome of a synchronous call. *)
Inductive completion (A : Type) : Type :=
| Normal (a : A)
| Throw (e : error).
Arguments Normal {A} a.
Arguments Throw {A} e.

Definition bindCompletion {A B : Type} (c : completion A)
  (f : A -> completion B) : completion B :=
  match c with
  | Normal a => f a
  | Throw e => Throw e
  end.

(** The primitives of [Js.value] and the one primitive they leave out whose
    conversion to a string fails: a Symbol.  A Symbol is truthy, and a
    template literal that holds one throws a [TypeError]. *)
Inductive wideValue : Type :=
| Prim (v : value)
| Symbol (description : string).


Definition ToBooleanWide (w : wideValue) : bool :=
  match w with
  | Prim v => ToBoolean v
  | Symbol _ => true
  end.

Definition symbolTypeError : error :=
  TypeError "Cannot convert a Symbol value to a string".

(** [ToString] as a template literal applies it. *)
Definition ToStringWide (w : wideValue) : completion string :=
  match w with
  | Prim v => Normal (ToString v)
  | Symbol _ => Throw symbolTypeError
  end.

(** Second argument of [db.query]: an array of bind values, or the empty
    string that [findAll] passes when it has none. *)
Inductive QueryValues : Type :=
| ValuesArray (vs : list value)
| ValuesEmptyString.

Record DbQuery : Type := mkDbQuery {
  queryText : string;
  queryValues : QueryValues
}.

(** A row is an object, column name to value. *)
Definition Row : Type := list (string * value).

Record QueryResult : Type := mkQueryResult { rows : list Row }.

(** An [async] function: it resolves, rejects, or awaits [db.query] and goes
    on with the result.  The database always answers; a statement that the
    database refuses is outside the model. *)
Inductive Async (A : Type) : Type :=
| Resolve (a : A)
| Reject (e : error)
| AwaitQuery (q : DbQuery) (k : QueryResult -> Async A).
Arguments Resolve {A} a.
Arguments Reject {A} e.
Arguments AwaitQuery {A} q k.

Fixpoint bind {A B : Type} (m : Async A) (f : A -> Async B) : Async B :=
  match m with
  | Resolve a => f a
  | Reject e => Reject e
  | AwaitQuery q k => AwaitQuery q (fun r => bind (k r) f)
  end.

Notation "'await' x ':=' m 'in' f" := (bind m (fun x => f))
  (at level 10, x name, m at level 100, f at level 200).

(** A [throw] inside an [async] function rejects its promise. *)
Definition liftCompletion {A : Type} (c : completion A) : Async A :=
  match c with
  | Normal a => Resolve a
  | Throw e => Reject e
  end.

(** The database requests a call makes before it settles, against a database
    that answers [db]. *)
Fixpoint queriesIssued {A : Type} (db : DbQuery -> QueryResult) (m : Async A)
  : list DbQuery :=
  match m with
  | Resolve _ => []
  | Reject _ => []
  | AwaitQuery q k => q :: queriesIssued db (k (db q))
  end.

(** What a call settles to against a database that answers [db]. *)
Fixpoint settle {A : Type} (db : DbQuery -> QueryResult) (m : Async A)
  : completion A :=
  match m with
  | Resolve a => Normal a
  | Reject e => Throw e
  | AwaitQuery q k => settle db (k (db q))
  end.

(** [try { m } catch (err) { h err }] around the awaits of [m]. *)
Fixpoint tryCatch {A : Type} (m : Async A) (h : error -> Async A) : Async A :=
  match m with
  | Resolve a => Resolve a
  | Reject e => h e
  | AwaitQuery q k => AwaitQuery q (fun r => tryCatch (k r) h)
  end.

(** [obj.key], and [const {key} = obj]: [undefined] when the object has no
    such property. *)
Definition prop (obj : gmap string value) (key : string) : value :=
  default undefined (obj !! key).

Definition dq : string := String "034"%char EmptyString.
Definition nl : string := String "010"%char EmptyString.

(** What [createFilterSql] resolves to: the object
    [{sqlStatments, sanatizedStatments}], or [false]. *)
Inductive FilterSql : Type :=
| Filter (sqlStatments : string) (sanatizedStatments : list string)
| NoFilter.

(** [const {sqlStatments, sanatizedStatments} = r]: both are [undefined] when
    [r] is [false]. *)
Definition destructure (r : FilterSql) : option string * option (list string) :=
  match r with
  | Filter s vs => (Some s, Some vs)
  | NoFilter => (None, None)
  end.

(* ================================================================== *)
(** ** helpers/sql.js *)
(* ================================================================== *)

(** What [sqlForPartialUpdate] returns: [{setCols, values}]. *)
Record PartialUpdate : Type := mkPartialUpdate {
  setCols : string;
  values : list value
}.

(** Modelled from the spec: the fragment [sqlForPartialUpdate] emits for the
    entry [kv] met at position [idx] (0-based) of the iteration, which is not
    part of the sources at hand.  Section 4.2, step 2: the column is the entry
    of [columnMap] for the key, or the key itself when there is none, and the
    placeholder index is the 1-based position. *)
Definition updateFragment
  (columnMap : gmap string string) (idx : nat) (kv : string * value) : string :=
  default (fst kv) (columnMap !! fst kv) +:+ " = $" +:+ nat_to_string (idx + 1).

(** Modelled from the spec: [sqlForPartialUpdate] of helpers/sql.js, which the
    models import and call but whose file is not part of the sources at hand.
    By section 4.2 of the specification, an empty [fields] fails with the
    validation error "no data"; otherwise every key, in iteration order,
    gives the fragment [column = $n], where [column] is the entry of
    [columnMap] for the key or else the key itself and [n] is the 1-based
    position of the key; the fragments are joined with commas and the values
    are returned in the same order.  An object is the list of its entries in
    iteration order. *)
Definition sqlForPartialUpdate
  (fields : list (string * value)) (columnMap : gmap string string)
  : completion PartialUpdate :=
  match fields with
  | [] => Throw (BadRequestError "no data")
  | _ :: _ =>
      let cols := imap (updateFragment columnMap) fields in
      Normal {| setCols := join ", " cols; values := map snd fields |}
  end.

(* ================================================================== *)
(** ** models/company.js *)
(* ================================================================== *)

(** [a.push(x) && b.push(y)]: the second call is made when the first one's
    value, the new length of [a], is truthy. *)
Definition pushBoth {A B : Type} (a : list A) (x : A) (b : list B) (y : B)
  : list A * list B :=
  let '(a', n) := push a x in
  if ToBoolean (Num (Int (Z.of_nat n))) then (a', fst (push b y)) else (a', b).

(** [a.push(x) && b.push(y)] where evaluating [y] may throw: [a.push(x)] has
    been done by then. *)
Definition pushBothWide {A B : Type}
  (a : list A) (x : A) (b : list B) (y : completion B)
  : completion (list A * list B) :=
  let '(a', n) := push a x in
  if ToBoolean (Num (Int (Z.of_nat n))) then
    bindCompletion y (fun y' => Normal (a', fst (push b y')))
  else Normal (a', b).

Module Company.

Section WithStringToNumber.

Variable StringToNumber : string -> number.

(** Lines 80 to 85 of [createFilterSql]: the two arrays after the three
    conditional statements. *)
Definition collectStatments (name minEmployees maxEmployees : value)
  : list string * list string :=
  let sqlStatments : list string := [] in
  let sanatizedStatments : list string := [] in
  let '(sqlStatments, sanatizedStatments) :=
    if ToBoolean name then
      pushBoth sqlStatments
               ("name ILIKE $" +:+ nat_to_string (length sqlStatments + 1))
               sanatizedStatments (ToString name +:+ "%")
    else (sqlStatments, sanatizedStatments) in
  let '(sqlStatments, sanatizedStatments) :=
    if ToBoolean minEmployees then
      pushBoth sqlStatments
               ("num_employees > $" +:+ nat_to_string (length sqlStatments + 1))
               sanatizedStatments (ToString minEmployees)
    else (sqlStatments, sanatizedStatments) in
  let '(sqlStatments, sanatizedStatments) :=
    if ToBoolean maxEmployees then
      pushBoth sqlStatments
               ("num_employees < $" +:+ nat_to_string (length sqlStatments + 1))
               sanatizedStatments (ToString maxEmployees)
    else (sqlStatments, sanatizedStatments) in
  (sqlStatments, sanatizedStatments).

Definition createFilterSql (name minEmployees maxEmployees : value)
  : Async FilterSql :=
  let '(sqlStatments, sanatizedStatments) :=
    collectStatments name minEmployees maxEmployees in
  if lt StringToNumber maxEmployees minEmployees then
    Reject (BadRequestError "minEmployees connot be greater than maxEmployees")
  else if (0 <? length sqlStatments)%nat then
    Resolve (Filter ("WHERE " +:+ join " AND " sqlStatments) sanatizedStatments)
  else
    Resolve NoFilter.

(** The statement [findAll] sends, from what [createFilterSql] resolved
    to.  A clause is a non-empty string and an array is truthy, so both
    conditionals keep what they test when it is there. *)
Definition findAllQuery (r : FilterSql) : DbQuery :=
  let '(sqlStatments, sanatizedStatments) := destructure r in
  {| queryText :=
       "SELECT handle," +:+ nl +:+
       "                  name," +:+ nl +:+
       "                  description," +:+ nl +:+
       "                  num_employees AS " +:+ dq +:+ "numEmployees" +:+ dq +:+ "," +:+ nl +:+
       "                  logo_url AS " +:+ dq +:+ "logoUrl" +:+ dq +:+ nl +:+
       "           FROM companies" +:+ nl +:+
       "           " +:+
       match sqlStatments with
       | Some s => if ToBoolean (Str s) then s else ""
       | None => ""
       end +:+
       nl +:+ "           ORDER BY name";
     queryValues :=
       match sanatizedStatments with
       | Some vs => ValuesArray (map Str vs)
       | None => ValuesEmptyString
       end |}.

Definition findAll (name minEmployees maxEmployees : value)
  : Async (list Row) :=
  await r := createFilterSql name minEmployees maxEmployees in
  AwaitQuery (findAllQuery r) (fun companiesRes => Resolve (rows companiesRes)).

End WithStringToNumber.

(** The duplicate check of [create]. *)
Definition createCheckQuery (handle : value) : DbQuery :=
  {| queryText :=
       "SELECT handle" +:+ nl +:+
       "           FROM companies" +:+ nl +:+
       "           WHERE handle = $1";
     queryValues := ValuesArray [handle] |}.

Definition createInsertQuery
  (handle name description numEmployees logoUrl : value) : DbQuery :=
  {| queryText :=
       "INSERT INTO companies" +:+ nl +:+
       "           (handle, name, description, num_employees, logo_url)" +:+ nl +:+
       "           VALUES ($1, $2, $3, $4, $5)" +:+ nl +:+
       "           RETURNING handle, name, description, num_employees AS " +:+ dq +:+ "numEmployees" +:+ dq +:+ ", logo_url AS " +:+ dq +:+ "logoUrl" +:+ dq;
     queryValues :=
       ValuesArray [handle; name; description; numEmployees; logoUrl] |}.

(** [create]: [rows[0]] is [head], which is [None] for [undefined]; a row is
    an object and so truthy. *)
Definition create (data : gmap string value) : Async (option Row) :=
  let handle := prop data "handle" in
  let name := prop data "name" in
  let description := prop data "description" in
  let numEmployees := prop data "numEmployees" in
  let logoUrl := prop data "logoUrl" in
  AwaitQuery (createCheckQuery handle)
    (fun duplicateCheck =>
       match head (rows duplicateCheck) with
       | Some _ =>
           Reject (BadRequestError ("Duplicate company: " +:+ ToString handle))
       | None =>
           AwaitQuery
             (createInsertQuery handle name description numEmployees logoUrl)
             (fun result => Resolve (head (rows result)))
       end).

Definition getQuery (handle : value) : DbQuery :=
  {| queryText :=
       nl +:+ "          SELECT to_json(res)from(" +:+ nl +:+
       "            SELECT c.handle," +:+ nl +:+
       "                  c.name," +:+ nl +:+
       "                  c.description," +:+ nl +:+
       "                  c.num_employees AS " +:+ dq +:+ "numEmployees" +:+ dq +:+ "," +:+ nl +:+
       "                  c.logo_url AS " +:+ dq +:+ "logoUrl" +:+ dq +:+ "," +:+ nl +:+
       "                  to_json(j) " +:+ dq +:+ "jobs" +:+ dq +:+ nl +:+
       "                  FROM companies c" +:+ nl +:+
       "                  INNER JOIN jobs j" +:+ nl +:+
       "                  ON c.handle = j.company_handle" +:+ nl +:+
       "                  WHERE c.handle = $1" +:+ nl +:+
       "          ) res;";
     queryValues := ValuesArray [handle] |}.

Definition get (handle : value) : Async Row :=
  AwaitQuery (getQuery handle)
    (fun companyRes =>
       match head (rows companyRes) with
       | Some company => Resolve company
       | None => Reject (NotFoundError ("No company: " +:+ ToString handle))
       end).

(** The column map [update] passes. *)
Definition jsToSql : gmap string string :=
  <["numEmployees" := "num_employees"]> (<["logoUrl" := "logo_url"]> ∅).

Definition updateQuery (handle : value) (u : PartialUpdate) : DbQuery :=
  let handleVarIdx := "$" +:+ nat_to_string (length (values u) + 1) in
  {| queryText :=
       "UPDATE companies " +:+ nl +:+
       "                      SET " +:+ setCols u +:+
       " " +:+ nl +:+
       "                      WHERE handle = " +:+ handleVarIdx +:+
       " " +:+ nl +:+
       "                      RETURNING handle, " +:+ nl +:+
       "                                name, " +:+ nl +:+
       "                                description, " +:+ nl +:+
       "                                num_employees AS " +:+ dq +:+ "numEmployees" +:+ dq +:+ ", " +:+ nl +:+
       "                                logo_url AS " +:+ dq +:+ "logoUrl" +:+ dq;
     queryValues := ValuesArray (values u ++ [handle]) |}.

Definition update (handle : value) (data : list (string * value)) : Async Row :=
  await u := liftCompletion (sqlForPartialUpdate data jsToSql) in
  AwaitQuery (updateQuery handle u)
    (fun result =>
       match head (rows result) with
       | Some company => Resolve company
       | None => Reject (NotFoundError ("No company: " +:+ ToString handle))
       end).

(** [update] with the imported [sqlForPartialUpdate] as a parameter: the
    body of [update] for whatever that function is. *)
Definition updateWith
  (helper : list (string * value) -> gmap string string
            -> completion PartialUpdate)
  (handle : value) (data : list (string * value)) : Async Row :=
  await u := liftCompletion (helper data jsToSql) in
  AwaitQuery (updateQuery handle u)
    (fun result =>
       match head (rows result) with
       | Some company => Resolve company
       | None => Reject (NotFoundError ("No company: " +:+ ToString handle))
       end).

Definition removeQuery (handle : value) : DbQuery :=
  {| queryText :=
       "DELETE" +:+ nl +:+
       "           FROM companies" +:+ nl +:+
       "           WHERE handle = $1" +:+ nl +:+
       "           RETURNING handle";
     queryValues := ValuesArray [handle] |}.

(** [remove] returns nothing: it resolves to [undefined]. *)
Definition remove (handle : value) : Async unit :=
  AwaitQuery (removeQuery handle)
    (fun result =>
       match head (rows result) with
       | Some _ => Resolve tt
       | None => Reject (NotFoundError ("No company: " +:+ ToString handle))
       end).

End Company.

(* ================================================================== *)
(** ** models/job.js *)
(* ================================================================== *)

Module Job.

(** Lines 82 to 87 of [createFilterSql]. *)
Definition collectStatments (title minSalary hasEquity : value)
  : list string * list string :=
  let sqlStatments : list string := [] in
  let sanatizedStatments : list string := [] in
  let '(sqlStatments, sanatizedStatments) :=
    if ToBoolean title then
      pushBoth sqlStatments
               ("title ILIKE $" +:+ nat_to_string (length sqlStatments + 1))
               sanatizedStatments (ToString title +:+ "%")
    else (sqlStatments, sanatizedStatments) in
  let '(sqlStatments, sanatizedStatments) :=
    if ToBoolean minSalary then
      pushBoth sqlStatments
               ("salary > $" +:+ nat_to_string (length sqlStatments + 1))
               sanatizedStatments (ToString minSalary)
    else (sqlStatments, sanatizedStatments) in
  let sqlStatments :=
    if ToBoolean hasEquity then fst (push sqlStatments "equity > 0")
    else sqlStatments in
  (sqlStatments, sanatizedStatments).

Definition createFilterSql (title minSalary hasEquity : value)
  : Async FilterSql :=
  let '(sqlStatments, sanatizedStatments) :=
    collectStatments title minSalary hasEquity in
  if (0 <? length sqlStatments)%nat then
    Resolve (Filter ("WHERE " +:+ join " AND " sqlStatments) sanatizedStatments)
  else
    Resolve NoFilter.

Definition findAllQuery (r : FilterSql) : DbQuery :=
  let '(sqlStatments, sanatizedStatments) := destructure r in
  {| queryText :=
       "SELECT id," +:+ nl +:+
       "                      title," +:+ nl +:+
       "                      salary," +:+ nl +:+
       "                      equity," +:+ nl +:+
       "                      company_handle AS " +:+ dq +:+ "companyHandle" +:+ dq +:+ nl +:+
       "               FROM jobs" +:+ nl +:+
       "               " +:+
       match sqlStatments with
       | Some s => if ToBoolean (Str s) then s else ""
       | None => ""
       end +:+
       nl +:+ "               ORDER BY company_handle";
     queryValues :=
       match sanatizedStatments with
       | Some vs => ValuesArray (map Str vs)
       | None => ValuesEmptyString
       end |}.

Definition findAll (title minSalary hasEquity : value) : Async (list Row) :=
  await r := createFilterSql title minSalary hasEquity in
  AwaitQuery (findAllQuery r) (fun jobsRes => Resolve (rows jobsRes)).

(** The column map [update] passes: every field under its own name. *)
Definition jsToSql : gmap string string :=
  <["title" := "title"]> (<["salary" := "salary"]> (<["equity" := "equity"]> ∅)).

Definition updateQuery (id : value) (u : PartialUpdate) : DbQuery :=
  let idVarIdx := "$" +:+ nat_to_string (length (values u) + 1) in
  {| queryText :=
       "UPDATE jobs " +:+ nl +:+
       "                      SET " +:+ setCols u +:+
       " " +:+ nl +:+
       "                      WHERE id = " +:+ idVarIdx +:+
       " " +:+ nl +:+
       "                      RETURNING id, " +:+ nl +:+
       "                                title, " +:+ nl +:+
       "                                salary, " +:+ nl +:+
       "                                equity, " +:+ nl +:+
       "                                company_handle AS " +:+ dq +:+ "companyHandle" +:+ dq;
     queryValues := ValuesArray (values u ++ [id]) |}.

Definition update (id : value) (data : list (string * value)) : Async Row :=
  await u := liftCompletion (sqlForPartialUpdate data jsToSql) in
  AwaitQuery (updateQuery id u)
    (fun result =>
       match rows result with
       | job :: _ => Resolve job
       | [] => Reject (NotFoundError ("No job: " +:+ ToString id))
       end).

(** The duplicate check of [create]. *)
Definition createCheckQuery (company_handle title : value) : DbQuery :=
  {| queryText :=
       "SELECT title" +:+ nl +:+
       "           FROM jobs" +:+ nl +:+
       "           WHERE company_handle = $1 AND title = $2";
     queryValues := ValuesArray [company_handle; title] |}.

Definition createInsertQuery (title salary equity company_handle : value)
  : DbQuery :=
  {| queryText :=
       "INSERT INTO jobs" +:+ nl +:+
       "           (title, salary, equity, company_handle)" +:+ nl +:+
       "           VALUES ($1, $2, $3, $4)" +:+ nl +:+
       "           RETURNING id, title, salary, equity, company_handle AS " +:+ dq +:+ "companyHandle" +:+ dq;
     queryValues := ValuesArray [title; salary; equity; company_handle] |}.

Definition create (data : gmap string value) : Async (option Row) :=
  let title := prop data "title" in
  let salary := prop data "salary" in
  let equity := prop data "equity" in
  let company_handle := prop data "company_handle" in
  AwaitQuery (createCheckQuery company_handle title)
    (fun duplicateCheck =>
       match head (rows duplicateCheck) with
       | Some _ =>
           Reject (BadRequestError
                     ("Duplicate company: " +:+ ToString company_handle))
       | None =>
           AwaitQuery (createInsertQuery title salary equity company_handle)
             (fun result => Resolve (head (rows result)))
       end).

Definition removeQuery (id : value) : DbQuery :=
  {| queryText :=
       "DELETE" +:+ nl +:+
       "               FROM jobs" +:+ nl +:+
       "               WHERE id = $1" +:+ nl +:+
       "               RETURNING id";
     queryValues := ValuesArray [id] |}.

(** [remove] hands [id] to [console.log] and then deletes: the first
    component lists what was logged, the second is the promise. *)
Definition remove (id : value) : list value * Async unit :=
  ([id],
   AwaitQuery (removeQuery id)
     (fun result =>
        match head (rows result) with
        | Some _ => Resolve tt
        | None => Reject (NotFoundError ("No company: " +:+ ToString id))
        end)).

(** [update] with the imported [sqlForPartialUpdate] as a parameter: the
    body of [update] for whatever that function is. *)
Definition updateWith
  (helper : list (string * value) -> gmap string string
            -> completion PartialUpdate)
  (id : value) (data : list (string * value)) : Async Row :=
  await u := liftCompletion (helper data jsToSql) in
  AwaitQuery (updateQuery id u)
    (fun result =>
       match rows result with
       | job :: _ => Resolve job
       | [] => Reject (NotFoundError ("No job: " +:+ ToString id))
       end).

(** [createFilterSql] on inputs that may be Symbols.  Lines 82 to 87: each
    statement is run in turn, and the template literal of a bind value may
    throw. *)
Definition collectStatmentsWide (title minSalary hasEquity : wideValue)
  : completion (list string * list string) :=
  let sqlStatments : list string := [] in
  let sanatizedStatments : list string := [] in
  bindCompletion
    (if ToBooleanWide title then
       pushBothWide sqlStatments
         ("title ILIKE $" +:+ nat_to_string (length sqlStatments + 1))
         sanatizedStatments
         (bindCompletion (ToStringWide title) (fun s => Normal (s +:+ "%")))
     else Normal (sqlStatments, sanatizedStatments))
    (fun st1 =>
       let '(sqlStatments, sanatizedStatments) := st1 in
       bindCompletion
         (if ToBooleanWide minSalary then
            pushBothWide sqlStatments
              ("salary > $" +:+ nat_to_string (length sqlStatments + 1))
              sanatizedStatments (ToStringWide minSalary)
          else Normal (sqlStatments, sanatizedStatments))
         (fun st2 =>
            let '(sqlStatments, sanatizedStatments) := st2 in
            let sqlStatments :=
              if ToBooleanWide hasEquity
              then fst (push sqlStatments "equity > 0")
              else sqlStatments in
            Normal (sqlStatments, sanatizedStatments))).

Definition createFilterSqlWide (title minSalary hasEquity : wideValue)
  : Async FilterSql :=
  await st := liftCompletion (collectStatmentsWide title minSalary hasEquity) in
  let '(sqlStatments, sanatizedStatments) := st in
  if (0 <? length sqlStatments)%nat then
    Resolve (Filter ("WHERE " +:+ join " AND " sqlStatments) sanatizedStatments)
  else
    Resolve NoFilter.

End Job.

(* ================================================================== *)
(** ** Reading a clause back *)
(* ================================================================== *)

Module Sql.

Inductive scanState : Type :=
| Outside
| AfterDollar
| InIndex (n : nat).

Definition digitOf (c : ascii) : option nat :=
  let k := nat_of_ascii c in
  if ((48 <=? k) && (k <=? 57))%nat then Some (k - 48) else None.

Definition flush (st : scanState) : list nat :=
  match st with
  | InIndex n => [n]
  | _ => []
  end.

Fixpoint scan (st : scanState) (s : string) : list nat :=
  match s with
  | EmptyString => flush st
  | String c s' =>
      match digitOf c, st with
      | Some d, AfterDollar => scan (InIndex d) s'
      | Some d, InIndex n => scan (InIndex (10 * n + d)) s'
      | Some _, Outside => scan Outside s'
      | None, _ =>
          flush st ++ scan (if Ascii.eqb c "$" then AfterDollar else Outside) s'
      end
  end.

(** The positional placeholders [$n] of a statement, left to right. *)
Definition placeholders (s : string) : list nat := scan Outside s.

(** Whether [sub] occurs in [s]. *)
Fixpoint occursIn (sub s : string) : bool :=
  if String.prefix sub s then true
  else match s with
       | EmptyString => false
       | String _ s' => occursIn sub s'
       end.

End Sql.

(* ================================================================== *)
(** ** The filter compiler as the specification words it *)
(* ================================================================== *)

(** Written from section 4.1 of the specification (steps 1, 3 and 4), to be
    compared with what the two [createFilterSql] do: the inputs are taken in
    declaration order, an input that is not supplied is skipped, a supplied
    one gives its fragment with the next placeholder index, and the
    boolean-presence kind takes neither a placeholder nor a bind value. *)
Module Spec.

Inductive PredicateKind : Type :=
| PrefixMatch
| NumericGreaterThan
| NumericLessThan
| BooleanPresence.

Record FilterInput : Type := mkFilterInput {
  rawValue : value;
  kind : PredicateKind;
  columnName : string
}.

(** "Not supplied" follows the language's falsy convention. *)
Definition supplied (i : FilterInput) : bool := ToBoolean (rawValue i).

Definition fragment (i : FilterInput) (n : nat) : string :=
  match kind i with
  | PrefixMatch => columnName i +:+ " ILIKE $" +:+ nat_to_string n
  | NumericGreaterThan => columnName i +:+ " > $" +:+ nat_to_string n
  | NumericLessThan => columnName i +:+ " < $" +:+ nat_to_string n
  | BooleanPresence => columnName i +:+ " > 0"
  end.

Definition bindValue (i : FilterInput) : option string :=
  match kind i with
  | PrefixMatch => Some (ToString (rawValue i) +:+ "%")
  | NumericGreaterThan => Some (ToString (rawValue i))
  | NumericLessThan => Some (ToString (rawValue i))
  | BooleanPresence => None
  end.

(** Step 1, with [n] the next placeholder index. *)
Fixpoint compileFragments (inputs : list FilterInput) (n : nat)
  : list string * list string :=
  match inputs with
  | [] => ([], [])
  | i :: rest =>
      if supplied i then
        match bindValue i with
        | Some v =>
            let '(frags, vals) := compileFragments rest (S n) in
            (fragment i n :: frags, v :: vals)
        | None =>
            let '(frags, vals) := compileFragments rest n in
            (fragment i n :: frags, vals)
        end
      else compileFragments rest n
  end.

(** Steps 3 and 4. *)
Definition compileFilter (inputs : list FilterInput) : FilterSql :=
  match compileFragments inputs 1 with
  | ([], _) => NoFilter
  | (frags, vals) => Filter ("WHERE " +:+ join " AND " frags) vals
  end.

(** The declared inputs of the two models. *)
Definition companyInputs (name minEmployees maxEmployees : value)
  : list FilterInput :=
  [ mkFilterInput name PrefixMatch "name";
    mkFilterInput minEmployees NumericGreaterThan "num_employees";
    mkFilterInput maxEmployees NumericLessThan "num_employees" ].

Definition jobInputs (title minSalary hasEquity : value) : list FilterInput :=
  [ mkFilterInput title PrefixMatch "title";
    mkFilterInput minSalary NumericGreaterThan "salary";
    mkFilterInput hasEquity BooleanPresence "equity" ].

End Spec.

(* ================================================================== *)
(** ** routes/jobs.js *)
(* ================================================================== *)

(** The two handlers that need nothing but the model: what they end with is
    either [res.json(body)] or [next(err)].  The [ensureLoggedIn] middleware
    in front of DELETE runs before the handler and is not part of it. *)
Module JobRoutes.

Inductive ResponseBody : Type :=
| JobsBody (jobs : list Row)
| DeletedBody (deleted : value).

Inductive Response : Type :=
| Json (body : ResponseBody)
| Next (err : error).

(** GET /: the three filters are read off [req.query]. *)
Definition getJobs (query : gmap string value) : Async Response :=
  tryCatch
    (let title := prop query "title" in
     let minSalary := prop query "minSalary" in
     let hasEquity := prop query "hasEquity" in
     await jobs := Job.findAll title minSalary hasEquity in
     Resolve (Json (JobsBody jobs)))
    (fun err => Resolve (Next err)).

(** DELETE /:id, with [id] for [req.params.id]; the first component is what
    [Job.remove] logged. *)
Definition deleteJob (id : value) : list value * Async Response :=
  let '(logged, removal) := Job.remove id in
  (logged,
   tryCatch
     (await _u := removal in Resolve (Json (DeletedBody id)))
     (fun err => Resolve (Next err))).

End JobRoutes.

(** A statement is well bound when its placeholders are [$1 .. $k], in this
    order, for the [k] values it is sent with; without an array of values it
    has no placeholder. *)
Definition wellBound (q : DbQuery) : Prop :=
  match queryValues q with
  | ValuesArray vs => Sql.placeholders (queryText q) = seq 1 (length vs)
  | ValuesEmptyString => Sql.placeholders (queryText q) = []
  end.

(** A character that ends a placeholder and starts none. *)
Definition separator (c : ascii) : Prop :=
  Sql.digitOf c = None /\ Ascii.eqb c "$" = false.

(** One function of the type of [StringToNumber], to run the company model on
    concrete inputs: the empty string is 0, an optional minus sign followed by
    decimal digits is that integer, and anything else is [NaN].  Every result
    below is proved for an arbitrary [StringToNumber]. *)
Definition digitsToNumber (s : string) : number :=
  if String.eqb s "" then Int 0
  else match NilEmpty.int_of_string s with
       | Some d => Int (Z.of_int d)
       | None => NaN
       end.

(* ================================================================== *)
(** ** Shared lemmas *)
(* ================================================================== *)

Definition boundsError : error :=
  BadRequestError "minEmployees connot be greater than maxEmployees".

(** Case analysis on which of the three inputs are supplied. *)
Ltac by_supplied x y z :=
  unfold Spec.compileFilter, Spec.companyInputs, Spec.jobInputs;
  cbn [Spec.compileFragments]; unfold Spec.supplied; cbn [Spec.rawValue];
  destruct (ToBoolean x), (ToBoolean y), (ToBoolean z).

(** [String x s +:+ t] one step further. *)
Ltac push_append :=
  match goal with
  | |- context [String ?x ?s +:+ ?t] =>
      change (String x s +:+ t) with (String x (s +:+ t))
  end.

(** The company compiler is the specification's compiler on the declared
    inputs, behind the bounds check. *)
Lemma company_createFilterSql_refines stn name mn mx :
  Company.createFilterSql stn name mn mx =
  if lt stn mx mn then Reject boundsError
  else Resolve (Spec.compileFilter (Spec.companyInputs name mn mx)).
Proof.
  unfold Company.createFilterSql, Company.collectStatments,
    Spec.compileFilter, Spec.companyInputs.
  cbn [Spec.compileFragments]; unfold Spec.supplied; cbn [Spec.rawValue].
  destruct (ToBoolean name), (ToBoolean mn), (ToBoolean mx),
    (lt stn mx mn); reflexivity.
Qed.

(** The jobs compiler is the specification's compiler on the declared
    inputs. *)
Lemma job_createFilterSql_refines title ms he :
  Job.createFilterSql title ms he =
  Resolve (Spec.compileFilter (Spec.jobInputs title ms he)).
Proof.
  unfold Job.createFilterSql, Job.collectStatments,
    Spec.compileFilter, Spec.jobInputs.
  cbn [Spec.compileFragments]; unfold Spec.supplied; cbn [Spec.rawValue].
  destruct (ToBoolean title), (ToBoolean ms), (ToBoolean he); reflexivity.
Qed.

Lemma company_clause_placeholders name mn mx text vals :
  Spec.compileFilter (Spec.companyInputs name mn mx) = Filter text vals ->
  Sql.placeholders text = seq 1 (length vals).
Proof.
  by_supplied name mn mx; intros H; inversion H; subst; reflexivity.
Qed.

Lemma job_clause_placeholders title ms he text vals :
  Spec.compileFilter (Spec.jobInputs title ms he) = Filter text vals ->
  Sql.placeholders text = seq 1 (length vals).
Proof.
  by_supplied title ms he; intros H; inversion H; subst; reflexivity.
Qed.

Lemma lt_numbers stn (a b : Z) :
  lt stn (Num (Int a)) (Num (Int b)) = (a <? b)%Z.
Proof. reflexivity. Qed.

(* ================================================================== *)
(** ** The filter compilers *)
(* ================================================================== *)

(** C1.  Whatever inputs are supplied or absent, a clause that either
    [createFilterSql] compiles has the placeholders [$1 .. $k] in this order,
    [k] being the number of bind values, and it is the specification's clause
    for the declared inputs: one fragment per supplied input, in declaration
    order. *)
Theorem createFilterSql_placeholders_contiguous :
  (forall stn name minEmployees maxEmployees text vals,
      Company.createFilterSql stn name minEmployees maxEmployees
        = Resolve (Filter text vals) ->
      Sql.placeholders text = seq 1 (length vals) /\
      length (Sql.placeholders text) = length vals /\
      Filter text vals
        = Spec.compileFilter (Spec.companyInputs name minEmployees maxEmployees))
  /\
  (forall title minSalary hasEquity text vals,
      Job.createFilterSql title minSalary hasEquity
        = Resolve (Filter text vals) ->
      Sql.placeholders text = seq 1 (length vals) /\
      length (Sql.placeholders text) = length vals /\
      Filter text vals
        = Spec.compileFilter (Spec.jobInputs title minSalary hasEquity)).
Proof.
  split.
  - intros stn name mn mx text vals H.
    rewrite company_createFilterSql_refines in H.
    destruct (lt stn mx mn); [discriminate|].
    injection H as H.
    pose proof (company_clause_placeholders _ _ _ _ _ H) as Hp.
    rewrite Hp, length_seq. auto.
  - intros title ms he text vals H.
    rewrite job_createFilterSql_refines in H.
    injection H as H.
    pose proof (job_clause_placeholders _ _ _ _ _ H) as Hp.
    rewrite Hp, length_seq. auto.
Qed.

Lemma createFilterSql_placeholders_contiguous_witness :
  (Company.createFilterSql digitsToNumber (Str "net") undefined (Num (Int 50))
   = Resolve (Filter "WHERE name ILIKE $1 AND num_employees < $2" ["net%"; "50"])
   /\ Sql.placeholders "WHERE name ILIKE $1 AND num_employees < $2" = [1; 2])
  /\
  (Job.createFilterSql undefined (Str "120000") (Bool true)
   = Resolve (Filter "WHERE salary > $1 AND equity > 0" ["120000"])
   /\ Sql.placeholders "WHERE salary > $1 AND equity > 0" = [1]).
Proof.
  split; (split; [reflexivity|]).
  - apply (proj1 createFilterSql_placeholders_contiguous digitsToNumber
             (Str "net") undefined (Num (Int 50))
             "WHERE name ILIKE $1 AND num_employees < $2" ["net%"; "50"]).
    reflexivity.
  - apply (proj2 createFilterSql_placeholders_contiguous
             undefined (Str "120000") (Bool true)
             "WHERE salary > $1 AND equity > 0" ["120000"]).
    reflexivity.
Defined.

(** C2.  The company filter for "ba", 200 and 500 is the clause of the
    comment above [createFilterSql] with the bind values "ba%", "200", "500";
    in general a name, a minimum and a maximum that are all supplied and in
    order give that clause with the name followed by the wildcard and the two
    bounds as their strings. *)
Theorem company_filter_ba_200_500 :
  (forall stn,
      Company.createFilterSql stn (Str "ba") (Num (Int 200)) (Num (Int 500))
      = Resolve
          (Filter
             "WHERE name ILIKE $1 AND num_employees > $2 AND num_employees < $3"
             ["ba%"; "200"; "500"]))
  /\
  (forall stn name minEmployees maxEmployees,
      ToBoolean name = true ->
      ToBoolean minEmployees = true ->
      ToBoolean maxEmployees = true ->
      lt stn maxEmployees minEmployees = false ->
      Company.createFilterSql stn name minEmployees maxEmployees
      = Resolve
          (Filter
             "WHERE name ILIKE $1 AND num_employees > $2 AND num_employees < $3"
             [ToString name +:+ "%"; ToString minEmployees;
              ToString maxEmployees])).
Proof.
  split; [reflexivity|].
  intros stn name mn mx Hn Hmn Hmx Hlt.
  unfold Company.createFilterSql, Company.collectStatments.
  rewrite Hn, Hmn, Hmx, Hlt. reflexivity.
Qed.

Lemma company_filter_ba_200_500_witness :
  (ToBoolean (Str "net") = true /\ ToBoolean (Num (Int 10)) = true /\
   ToBoolean (Num (Int 75)) = true /\
   lt digitsToNumber (Num (Int 75)) (Num (Int 10)) = false)
  /\
  Company.createFilterSql digitsToNumber (Str "net") (Num (Int 10)) (Num (Int 75))
  = Resolve
      (Filter
         "WHERE name ILIKE $1 AND num_employees > $2 AND num_employees < $3"
         ["net%"; "10"; "75"]).
Proof.
  split; [repeat split|].
  apply (proj2 company_filter_ba_200_500 digitsToNumber
           (Str "net") (Num (Int 10)) (Num (Int 75))); reflexivity.
Defined.

(** C3.  Two numbers with the maximum below the minimum: [createFilterSql]
    rejects with the [BadRequestError] and resolves to nothing, whatever the
    name is. *)
Theorem company_bounds_out_of_order_rejected stn name (minEmployees maxEmployees : Z) :
  (maxEmployees < minEmployees)%Z ->
  Company.createFilterSql stn name (Num (Int minEmployees)) (Num (Int maxEmployees))
  = Reject (BadRequestError "minEmployees connot be greater than maxEmployees").
Proof.
  intros Hlt.
  rewrite company_createFilterSql_refines, lt_numbers.
  apply Z.ltb_lt in Hlt. rewrite Hlt. reflexivity.
Qed.

Lemma company_bounds_out_of_order_rejected_witness :
  (200 < 500)%Z /\
  Company.createFilterSql digitsToNumber (Str "ba") (Num (Int 500)) (Num (Int 200))
  = Reject (BadRequestError "minEmployees connot be greater than maxEmployees").
Proof.
  split; [lia|].
  apply (company_bounds_out_of_order_rejected digitsToNumber (Str "ba") 500 200).
  lia.
Defined.

(** Bounds that arrive as strings are compared as strings: "10" is below "9",
    so a minimum of "9" with a maximum of "10" is rejected, and a minimum of
    "10" with a maximum of "9" is compiled. *)
Lemma company_string_bounds_compared_as_strings stn name :
  Company.createFilterSql stn name (Str "9") (Str "10") = Reject boundsError /\
  exists text vals,
    Company.createFilterSql stn name (Str "10") (Str "9")
    = Resolve (Filter text vals).
Proof.
  rewrite !company_createFilterSql_refines. split; [reflexivity|].
  change (lt stn (Str "9") (Str "10")) with false; cbv iota.
  unfold Spec.compileFilter, Spec.companyInputs.
  cbn [Spec.compileFragments]; unfold Spec.supplied; cbn [Spec.rawValue].
  destruct (ToBoolean name); cbn; eauto.
Qed.

(** C4.  The code does not include a bound that is the number 0.  The guard
    of every predicate is the truthiness of its input, and 0 is falsy: the
    jobs compiler called with the title "test" and a minimum salary of 0
    compiles the title alone, the company compiler called with "ba", a
    minimum of 0 and a maximum of 500 compiles no minimum, and in general a
    minimum salary of 0 gives what an absent one gives. *)
Theorem zero_bound_dropped_by_filter :
  Job.createFilterSql (Str "test") (Num (Int 0)) undefined
    = Resolve (Filter "WHERE title ILIKE $1" ["test%"])
  /\
  (forall stn,
      Company.createFilterSql stn (Str "ba") (Num (Int 0)) (Num (Int 500))
      = Resolve (Filter "WHERE name ILIKE $1 AND num_employees < $2"
                   ["ba%"; "500"]))
  /\
  (forall title hasEquity,
      Job.createFilterSql title (Num (Int 0)) hasEquity
      = Job.createFilterSql title undefined hasEquity).
Proof.
  split; [reflexivity|]. split.
  - intros stn. rewrite company_createFilterSql_refines, lt_numbers.
    reflexivity.
  - intros title hasEquity. unfold Job.createFilterSql, Job.collectStatments.
    change (ToBoolean (Num (Int 0))) with false.
    change (ToBoolean undefined) with false. reflexivity.
Qed.

(** C6.  A truthy [hasEquity] adds the constant fragment [equity > 0] after
    the fragments of the other inputs.  The fragment holds no placeholder, the
    bind values are those of the call without [hasEquity], and the clause
    still numbers its placeholders 1, 2, ... *)
Theorem hasEquity_fragment_takes_no_placeholder title minSalary hasEquity :
  ToBoolean hasEquity = true ->
  exists text vals,
    Job.createFilterSql title minSalary hasEquity = Resolve (Filter text vals) /\
    fst (Job.collectStatments title minSalary hasEquity)
      = fst (Job.collectStatments title minSalary undefined) ++ ["equity > 0"] /\
    text = "WHERE " +:+
           join " AND " (fst (Job.collectStatments title minSalary hasEquity)) /\
    Sql.placeholders "equity > 0" = [] /\
    vals = snd (Job.collectStatments title minSalary undefined) /\
    Sql.placeholders text = seq 1 (length vals).
Proof.
  intros He.
  unfold Job.createFilterSql, Job.collectStatments. rewrite He.
  change (ToBoolean undefined) with false.
  destruct (ToBoolean title), (ToBoolean minSalary);
    eexists _, _; repeat split.
Qed.

Lemma hasEquity_fragment_takes_no_placeholder_witness :
  ToBoolean (Str "true") = true /\
  exists text vals,
    Job.createFilterSql (Str "test") (Num (Int 100000)) (Str "true")
      = Resolve (Filter text vals) /\
    fst (Job.collectStatments (Str "test") (Num (Int 100000)) (Str "true"))
      = fst (Job.collectStatments (Str "test") (Num (Int 100000)) undefined)
        ++ ["equity > 0"] /\
    text = "WHERE " +:+
           join " AND "
             (fst (Job.collectStatments (Str "test") (Num (Int 100000)) (Str "true"))) /\
    Sql.placeholders "equity > 0" = [] /\
    vals = snd (Job.collectStatments (Str "test") (Num (Int 100000)) undefined) /\
    Sql.placeholders text = seq 1 (length vals).
Proof.
  split; [reflexivity|].
  apply (hasEquity_fragment_takes_no_placeholder
           (Str "test") (Num (Int 100000)) (Str "true")).
  reflexivity.
Defined.

(** Two falsy values are never in the order [<]. *)
Lemma lt_falsy stn x y :
  stn "" = Int 0 ->
  ToBoolean x = false -> ToBoolean y = false -> lt stn x y = false.
Proof.
  intros Hempty Hx Hy.
  destruct x as [| |[]|[|zx]|sx], y as [| |[]|[|zy]|sy];
    cbn in Hx, Hy; try discriminate;
    repeat match goal with
      | H : negb (_ =? _)%Z = false |- _ =>
          apply negb_false_iff, Z.eqb_eq in H; subst
      | H : negb (String.eqb _ _) = false |- _ =>
          apply negb_false_iff, String.eqb_eq in H; subst
      end;
    cbn; rewrite ?Hempty; reflexivity.
Qed.

(** C7.  When every filter value is absent (falsy, [undefined] in
    particular) both [createFilterSql] resolve to [false], which is not a
    clause object, and [findAll] then sends exactly one statement: the one
    without a WHERE clause, with the empty string in the place of the bind
    values. *)
Theorem all_absent_gives_no_filter :
  (forall stn name minEmployees maxEmployees db,
      stn "" = Int 0 ->
      ToBoolean name = false ->
      ToBoolean minEmployees = false ->
      ToBoolean maxEmployees = false ->
      Company.createFilterSql stn name minEmployees maxEmployees
        = Resolve NoFilter /\
      queriesIssued db (Company.findAll stn name minEmployees maxEmployees)
        = [Company.findAllQuery NoFilter])
  /\
  (forall title minSalary hasEquity db,
      ToBoolean title = false ->
      ToBoolean minSalary = false ->
      ToBoolean hasEquity = false ->
      Job.createFilterSql title minSalary hasEquity = Resolve NoFilter /\
      queriesIssued db (Job.findAll title minSalary hasEquity)
        = [Job.findAllQuery NoFilter])
  /\
  (Sql.occursIn "WHERE" (queryText (Company.findAllQuery NoFilter)) = false /\
   queryValues (Company.findAllQuery NoFilter) = ValuesEmptyString /\
   Sql.occursIn "WHERE" (queryText (Job.findAllQuery NoFilter)) = false /\
   queryValues (Job.findAllQuery NoFilter) = ValuesEmptyString)
  /\
  (forall text vals, NoFilter <> Filter text vals).
Proof.
  split; [|split; [|split]].
  - intros stn name mn mx db Hempty Hn Hmn Hmx.
    assert (H : Company.createFilterSql stn name mn mx = Resolve NoFilter).
    { unfold Company.createFilterSql, Company.collectStatments.
      rewrite Hn, Hmn, Hmx, (lt_falsy stn mx mn Hempty Hmx Hmn). reflexivity. }
    split; [exact H|]. unfold Company.findAll. rewrite H. reflexivity.
  - intros title ms he db Ht Hms Hhe.
    assert (H : Job.createFilterSql title ms he = Resolve NoFilter).
    { unfold Job.createFilterSql, Job.collectStatments.
      rewrite Ht, Hms, Hhe. reflexivity. }
    split; [exact H|]. unfold Job.findAll. rewrite H. reflexivity.
  - repeat split.
  - discriminate.
Qed.

Lemma all_absent_gives_no_filter_witness :
  (digitsToNumber "" = Int 0 /\ ToBoolean undefined = false)
  /\
  (Company.createFilterSql digitsToNumber undefined undefined undefined
     = Resolve NoFilter /\
   queriesIssued (fun _ => mkQueryResult [])
     (Company.findAll digitsToNumber undefined undefined undefined)
     = [Company.findAllQuery NoFilter])
  /\
  (Job.createFilterSql undefined undefined undefined = Resolve NoFilter /\
   queriesIssued (fun _ => mkQueryResult [])
     (Job.findAll undefined undefined undefined)
     = [Job.findAllQuery NoFilter]).
Proof.
  split; [split; reflexivity|]. split.
  - apply (proj1 all_absent_gives_no_filter digitsToNumber
             undefined undefined undefined (fun _ => mkQueryResult []));
      reflexivity.
  - apply (proj1 (proj2 all_absent_gives_no_filter)
             undefined undefined undefined (fun _ => mkQueryResult []));
      reflexivity.
Defined.

(** C9.  A maximum of 0 with a positive minimum is rejected by the bounds
    check, although a maximum of 0 is not compiled: the arrays are those of a
    call without a maximum, and that call is not rejected. *)
Theorem zero_maximum_still_checked stn name (minEmployees : Z) :
  (0 < minEmployees)%Z ->
  Company.createFilterSql stn name (Num (Int minEmployees)) (Num (Int 0))
    = Reject (BadRequestError "minEmployees connot be greater than maxEmployees")
  /\
  Company.collectStatments name (Num (Int minEmployees)) (Num (Int 0))
    = Company.collectStatments name (Num (Int minEmployees)) undefined
  /\
  exists text vals,
    Company.createFilterSql stn name (Num (Int minEmployees)) undefined
      = Resolve (Filter text vals) /\
    Sql.occursIn "num_employees < $" text = false.
Proof.
  intros Hpos. split; [|split; [reflexivity|]].
  - rewrite company_createFilterSql_refines, lt_numbers.
    apply Z.ltb_lt in Hpos. rewrite Hpos. reflexivity.
  - unfold Company.createFilterSql, Company.collectStatments.
    assert (Hmin : ToBoolean (Num (Int minEmployees)) = true).
    { cbn. apply negb_true_iff, Z.eqb_neq. lia. }
    rewrite Hmin. change (ToBoolean undefined) with false.
    destruct (ToBoolean name); eexists _, _; split; reflexivity.
Qed.

Lemma zero_maximum_still_checked_witness :
  (0 < 5)%Z /\
  Company.createFilterSql digitsToNumber (Str "ba") (Num (Int 5)) (Num (Int 0))
    = Reject (BadRequestError "minEmployees connot be greater than maxEmployees").
Proof.
  split; [lia|].
  apply (zero_maximum_still_checked digitsToNumber (Str "ba") 5). lia.
Defined.

(** On primitives the compiler that admits Symbols is [Job.createFilterSql]. *)
Lemma job_createFilterSqlWide_on_primitives title minSalary hasEquity :
  Job.createFilterSqlWide (Prim title) (Prim minSalary) (Prim hasEquity)
  = Job.createFilterSql title minSalary hasEquity.
Proof.
  unfold Job.createFilterSqlWide, Job.collectStatmentsWide,
    Job.createFilterSql, Job.collectStatments.
  cbn [ToBooleanWide ToStringWide].
  destruct (ToBoolean title), (ToBoolean minSalary), (ToBoolean hasEquity);
    reflexivity.
Qed.



(* ================================================================== *)
(** ** The partial-update compiler *)
(* ================================================================== *)

Lemma append_empty (a b : string) : a +:+ b = "" -> a = "" /\ b = "".
Proof. destruct a; cbn; [auto|discriminate]. Qed.

Lemma updateFragment_nonempty columnMap idx kv :
  updateFragment columnMap idx kv <> "".
Proof.
  unfold updateFragment. intros H.
  apply append_empty in H as [_ H]. cbn in H. discriminate.
Qed.

Lemma join_head_nonempty sep x xs : x <> "" -> join sep (x :: xs) <> "".
Proof.
  intros Hx H. unfold join in H. cbn in H.
  destruct xs; [easy|]. apply append_empty in H as [H _]. easy.
Qed.

(** C5.  Whatever the column map is, an empty field mapping makes
    [sqlForPartialUpdate] throw the "no data" validation error; [Job.update]
    then rejects with it without sending any statement; and a SET clause that
    is returned is never empty. *)
Theorem partial_update_empty_rejected :
  (forall columnMap : gmap string string,
      sqlForPartialUpdate [] columnMap = Throw (BadRequestError "no data"))
  /\
  (forall id, Job.update id [] = Reject (BadRequestError "no data"))
  /\
  (forall id db, queriesIssued db (Job.update id []) = [])
  /\
  (forall fields (columnMap : gmap string string) u,
      sqlForPartialUpdate fields columnMap = Normal u -> setCols u <> "").
Proof.
  repeat split.
  intros [|kv fields] columnMap u H; [discriminate|].
  injection H as <-. cbn [setCols imap].
  apply join_head_nonempty, updateFragment_nonempty.
Qed.

Lemma partial_update_empty_rejected_witness :
  sqlForPartialUpdate [("salary", Num (Int 90000))] Job.jsToSql
    = Normal {| setCols := "salary = $1"; values := [Num (Int 90000)] |}
  /\ "salary = $1" <> "".
Proof.
  split; [reflexivity|].
  apply (proj2 (proj2 (proj2 partial_update_empty_rejected))
           [("salary", Num (Int 90000))] Job.jsToSql
           {| setCols := "salary = $1"; values := [Num (Int 90000)] |}).
  reflexivity.
Defined.

(** C8.  The single field [title] with an empty column map compiles to
    [title = $1] with the bind value "TESTTEST", and [Job.update] sends it
    with the row identifier as the second bind value.  In any update, a field
    that the column map does not name gives a fragment under its own name. *)
Theorem partial_update_title_only :
  sqlForPartialUpdate [("title", Str "TESTTEST")] ∅
    = Normal {| setCols := "title = $1"; values := [Str "TESTTEST"] |}
  /\
  (forall id db,
      queriesIssued db (Job.update id [("title", Str "TESTTEST")])
      = [Job.updateQuery id
           {| setCols := "title = $1"; values := [Str "TESTTEST"] |}]
      /\ queryValues
           (Job.updateQuery id
              {| setCols := "title = $1"; values := [Str "TESTTEST"] |})
         = ValuesArray [Str "TESTTEST"; id])
  /\
  (forall (columnMap : gmap string string) (fields : list (string * value))
          i field v,
      fields !! i = Some (field, v) ->
      columnMap !! field = None ->
      exists cols,
        sqlForPartialUpdate fields columnMap
          = Normal {| setCols := join ", " cols; values := map snd fields |} /\
        cols !! i = Some (field +:+ " = $" +:+ nat_to_string (i + 1))).
Proof.
  split; [reflexivity|]. split.
  { intros id db; split; [|reflexivity].
    change (Job.update id [("title", Str "TESTTEST")])
      with (AwaitQuery
              (Job.updateQuery id
                 {| setCols := "title = $1"; values := [Str "TESTTEST"] |})
              (fun result =>
                 match rows result with
                 | job :: _ => Resolve job
                 | [] => Reject (NotFoundError ("No job: " +:+ ToString id))
                 end)).
    cbn [queriesIssued]. now destruct (rows (db _)). }
  intros columnMap fields i field v Hi Hcol.
  exists (imap (updateFragment columnMap) fields). split.
  - destruct fields; [discriminate|reflexivity].
  - rewrite list_lookup_imap, Hi. cbn.
    unfold updateFragment. cbn. rewrite Hcol. reflexivity.
Qed.

Lemma partial_update_title_only_witness :
  ([("salary", Num (Int 1)); ("title", Str "TESTTEST")] !! 1
     = Some ("title", Str "TESTTEST")
   /\ (<["salary" := "pay"]> ∅ : gmap string string) !! "title" = None)
  /\
  exists cols,
    sqlForPartialUpdate [("salary", Num (Int 1)); ("title", Str "TESTTEST")]
      (<["salary" := "pay"]> ∅)
      = Normal {| setCols := join ", " cols;
                  values := [Num (Int 1); Str "TESTTEST"] |} /\
    cols !! 1 = Some "title = $2".
Proof.
  split; [split; reflexivity|].
  apply (proj2 (proj2 partial_update_title_only)
           (<["salary" := "pay"]> ∅)
           [("salary", Num (Int 1)); ("title", Str "TESTTEST")]
           1 "title" (Str "TESTTEST")); reflexivity.
Defined.

(* ================================================================== *)
(** ** The callers of the filter compilers *)
(* ================================================================== *)





Lemma company_findAll_resolved stn name mn mx r db :
  Company.createFilterSql stn name mn mx = Resolve r ->
  queriesIssued db (Company.findAll stn name mn mx) = [Company.findAllQuery r] /\
  settle db (Company.findAll stn name mn mx)
    = Normal (rows (db (Company.findAllQuery r))).
Proof. intros H. unfold Company.findAll. rewrite H. split; reflexivity. Qed.

Lemma company_findAll_rejected stn name mn mx e db :
  Company.createFilterSql stn name mn mx = Reject e ->
  queriesIssued db (Company.findAll stn name mn mx) = [] /\
  settle db (Company.findAll stn name mn mx) = Throw e.
Proof. intros H. unfold Company.findAll. rewrite H. split; reflexivity. Qed.

Lemma company_findAllQuery_wellBound name mn mx :
  wellBound (Company.findAllQuery
               (Spec.compileFilter (Spec.companyInputs name mn mx))).
Proof. by_supplied name mn mx; reflexivity. Qed.

Lemma job_findAllQuery_wellBound title ms he :
  wellBound (Job.findAllQuery (Spec.compileFilter (Spec.jobInputs title ms he))).
Proof. by_supplied title ms he; reflexivity. Qed.

(** X1.  Every statement [Company.findAll] and [Job.findAll] send has the
    placeholders [$1 .. $k], in this order, for the [k] bind values sent with
    it, and no placeholder when the empty string is sent in their place. *)
Theorem findAll_statements_well_bound :
  (forall stn name minEmployees maxEmployees db,
      Forall wellBound
        (queriesIssued db (Company.findAll stn name minEmployees maxEmployees)))
  /\
  (forall title minSalary hasEquity db,
      Forall wellBound
        (queriesIssued db (Job.findAll title minSalary hasEquity))).
Proof.
  split.
  - intros stn name mn mx db.
    pose proof (company_createFilterSql_refines stn name mn mx) as H.
    destruct (lt stn mx mn).
    + apply (company_findAll_rejected _ _ _ _ _ db) in H as [-> _].
      constructor.
    + apply (company_findAll_resolved _ _ _ _ _ db) in H as [-> _].
      repeat constructor. apply company_findAllQuery_wellBound.
  - intros title ms he db. unfold Job.findAll.
    rewrite job_createFilterSql_refines. cbn [bind queriesIssued].
    repeat constructor. apply job_findAllQuery_wellBound.
Qed.

(** X2.  [Company.findAll] with two numbers as bounds: when the maximum is
    below the minimum it rejects with the [BadRequestError] and sends nothing
    to the database; otherwise it sends exactly one statement, the one built
    from what [createFilterSql] resolved to, and resolves to the rows the
    database answers, as they are. *)
Theorem company_findAll_checks_bounds_before_querying
  stn name (minEmployees maxEmployees : Z) db :
  ((maxEmployees < minEmployees)%Z ->
   queriesIssued db
     (Company.findAll stn name (Num (Int minEmployees)) (Num (Int maxEmployees)))
     = [] /\
   settle db
     (Company.findAll stn name (Num (Int minEmployees)) (Num (Int maxEmployees)))
     = Throw (BadRequestError "minEmployees connot be greater than maxEmployees"))
  /\
  ((minEmployees <= maxEmployees)%Z ->
   exists r,
     Company.createFilterSql stn name (Num (Int minEmployees)) (Num (Int maxEmployees))
       = Resolve r /\
     queriesIssued db
       (Company.findAll stn name (Num (Int minEmployees)) (Num (Int maxEmployees)))
       = [Company.findAllQuery r] /\
     settle db
       (Company.findAll stn name (Num (Int minEmployees)) (Num (Int maxEmployees)))
       = Normal (rows (db (Company.findAllQuery r)))).
Proof.
  pose proof (company_createFilterSql_refines stn name
                (Num (Int minEmployees)) (Num (Int maxEmployees))) as H.
  rewrite lt_numbers in H. split; intros Hb.
  - apply Z.ltb_lt in Hb. rewrite Hb in H.
    now apply company_findAll_rejected.
  - apply Z.ltb_ge in Hb. rewrite Hb in H.
    eexists. split; [exact H|]. now apply company_findAll_resolved.
Qed.

Lemma company_findAll_checks_bounds_before_querying_witness :
  ((200 < 500)%Z /\
   queriesIssued (fun _ => mkQueryResult [])
     (Company.findAll digitsToNumber (Str "ba") (Num (Int 500)) (Num (Int 200)))
     = [])
  /\
  ((200 <= 500)%Z /\
   exists r,
     Company.createFilterSql digitsToNumber (Str "ba") (Num (Int 200)) (Num (Int 500))
       = Resolve r /\
     queriesIssued (fun _ => mkQueryResult [])
       (Company.findAll digitsToNumber (Str "ba") (Num (Int 200)) (Num (Int 500)))
       = [Company.findAllQuery r] /\
     settle (fun _ => mkQueryResult [])
       (Company.findAll digitsToNumber (Str "ba") (Num (Int 200)) (Num (Int 500)))
       = Normal (rows (mkQueryResult []))).
Proof.
  split; (split; [lia|]).
  - apply (proj1 (company_findAll_checks_bounds_before_querying
                    digitsToNumber (Str "ba") 500 200 (fun _ => mkQueryResult []))).
    lia.
  - apply (proj2 (company_findAll_checks_bounds_before_querying
                    digitsToNumber (Str "ba") 200 500 (fun _ => mkQueryResult []))).
    lia.
Defined.

(** X3.  The text of the statement [findAll] sends depends only on which of
    the three inputs are supplied, never on their values: what the caller
    passes reaches the database in the bind values alone. *)
Theorem findAll_statement_text_ignores_values :
  (forall stn n1 a1 b1 n2 a2 b2 r1 r2,
      ToBoolean n1 = ToBoolean n2 ->
      ToBoolean a1 = ToBoolean a2 ->
      ToBoolean b1 = ToBoolean b2 ->
      Company.createFilterSql stn n1 a1 b1 = Resolve r1 ->
      Company.createFilterSql stn n2 a2 b2 = Resolve r2 ->
      queryText (Company.findAllQuery r1) = queryText (Company.findAllQuery r2))
  /\
  (forall t1 s1 e1 t2 s2 e2 r1 r2,
      ToBoolean t1 = ToBoolean t2 ->
      ToBoolean s1 = ToBoolean s2 ->
      ToBoolean e1 = ToBoolean e2 ->
      Job.createFilterSql t1 s1 e1 = Resolve r1 ->
      Job.createFilterSql t2 s2 e2 = Resolve r2 ->
      queryText (Job.findAllQuery r1) = queryText (Job.findAllQuery r2)).
Proof.
  split.
  - intros stn n1 a1 b1 n2 a2 b2 r1 r2 Hn Ha Hb H1 H2.
    rewrite company_createFilterSql_refines in H1, H2.
    destruct (lt stn b1 a1); [discriminate|].
    destruct (lt stn b2 a2); [discriminate|].
    injection H1 as <-. injection H2 as <-.
    unfold Spec.compileFilter, Spec.companyInputs.
    cbn [Spec.compileFragments]; unfold Spec.supplied; cbn [Spec.rawValue].
    rewrite Hn, Ha, Hb.
    destruct (ToBoolean n2), (ToBoolean a2), (ToBoolean b2); reflexivity.
  - intros t1 s1 e1 t2 s2 e2 r1 r2 Ht Hs He H1 H2.
    rewrite job_createFilterSql_refines in H1, H2.
    injection H1 as <-. injection H2 as <-.
    unfold Spec.compileFilter, Spec.jobInputs.
    cbn [Spec.compileFragments]; unfold Spec.supplied; cbn [Spec.rawValue].
    rewrite Ht, Hs, He.
    destruct (ToBoolean t2), (ToBoolean s2), (ToBoolean e2); reflexivity.
Qed.

Lemma findAll_statement_text_ignores_values_witness :
  queryText (Company.findAllQuery
               (Filter "WHERE name ILIKE $1 AND num_employees > $2" ["a%"; "1"]))
  = queryText (Company.findAllQuery
                 (Filter "WHERE name ILIKE $1 AND num_employees > $2"
                    ["x' OR 1=1 --%"; "7"]))
  /\
  queryText (Job.findAllQuery (Filter "WHERE title ILIKE $1" ["a%"]))
  = queryText (Job.findAllQuery (Filter "WHERE title ILIKE $1" ["b; DROP%"])).
Proof.
  split.
  - apply (proj1 findAll_statement_text_ignores_values digitsToNumber
             (Str "a") (Num (Int 1)) undefined
             (Str "x' OR 1=1 --") (Num (Int 7)) undefined); reflexivity.
  - apply (proj2 findAll_statement_text_ignores_values
             (Str "a") undefined undefined
             (Str "b; DROP") undefined undefined); reflexivity.
Defined.


(** X5.  [createFilterSql] resolves to [false] only when the three inputs
    are all falsy; for the jobs compiler this is an equivalence. *)
Theorem no_filter_only_when_all_absent :
  (forall stn name minEmployees maxEmployees,
      Company.createFilterSql stn name minEmployees maxEmployees
        = Resolve NoFilter ->
      ToBoolean name = false /\ ToBoolean minEmployees = false /\
      ToBoolean maxEmployees = false)
  /\
  (forall title minSalary hasEquity,
      Job.createFilterSql title minSalary hasEquity = Resolve NoFilter <->
      ToBoolean title = false /\ ToBoolean minSalary = false /\
      ToBoolean hasEquity = false).
Proof.
  split.
  - intros stn name mn mx H.
    rewrite company_createFilterSql_refines in H.
    destruct (lt stn mx mn); [discriminate|]. revert H.
    by_supplied name mn mx; intros H; try discriminate; auto.
  - intros title ms he. rewrite job_createFilterSql_refines.
    by_supplied title ms he; split;
      solve [ discriminate | intros (? & ? & ?); discriminate | auto ].
Qed.

Lemma no_filter_only_when_all_absent_witness :
  ToBoolean undefined = false /\ ToBoolean (Str "") = false /\
  ToBoolean (Num (Int 0)) = false.
Proof.
  apply (proj1 no_filter_only_when_all_absent digitsToNumber
           undefined (Str "") (Num (Int 0))).
  reflexivity.
Defined.

(* ================================================================== *)
(** ** create, get and remove *)
(* ================================================================== *)

(** X6.  [Company.create] asks for a company with the same handle first.  If
    the database answers with a row, it rejects with "Duplicate company:
    <handle>" and the INSERT is never sent; if not, the INSERT is the second
    and last statement, with the five fields of [data] in column order, and
    [create] resolves to its first row.  Both statements are well bound. *)
Theorem company_create_checks_duplicate_first (data : gmap string value) db :
  (rows (db (Company.createCheckQuery (prop data "handle"))) <> [] ->
   queriesIssued db (Company.create data)
     = [Company.createCheckQuery (prop data "handle")] /\
   settle db (Company.create data)
     = Throw (BadRequestError
                ("Duplicate company: " +:+ ToString (prop data "handle"))))
  /\
  (rows (db (Company.createCheckQuery (prop data "handle"))) = [] ->
   queriesIssued db (Company.create data)
     = [Company.createCheckQuery (prop data "handle");
        Company.createInsertQuery
          (prop data "handle") (prop data "name") (prop data "description")
          (prop data "numEmployees") (prop data "logoUrl")] /\
   settle db (Company.create data)
     = Normal (head (rows (db (Company.createInsertQuery
                                 (prop data "handle") (prop data "name")
                                 (prop data "description")
                                 (prop data "numEmployees")
                                 (prop data "logoUrl"))))))
  /\
  Forall wellBound (queriesIssued db (Company.create data)).
Proof.
  unfold Company.create. cbn [queriesIssued settle].
  destruct (rows (db (Company.createCheckQuery (prop data "handle"))))
    as [|r rs]; cbn [head queriesIssued settle];
    (split; [|split]); try easy; repeat constructor.
Qed.

Lemma company_create_checks_duplicate_first_witness :
  (rows (mkQueryResult [[("handle", Str "c1")]]) <> [] /\
   settle (fun _ => mkQueryResult [[("handle", Str "c1")]])
     (Company.create (<["handle" := Str "c1"]> ∅))
   = Throw (BadRequestError "Duplicate company: c1"))
  /\
  (rows (mkQueryResult []) = [] /\
   settle (fun _ => mkQueryResult [])
     (Company.create (<["handle" := Str "c1"]> ∅))
   = Normal None).
Proof.
  split.
  - split; [discriminate|].
    refine (proj2 (proj1 (company_create_checks_duplicate_first
                            (<["handle" := Str "c1"]> ∅)
                            (fun _ => mkQueryResult [[("handle", Str "c1")]]))
                     _)).
    discriminate.
  - split; [reflexivity|].
    refine (proj2 (proj1 (proj2 (company_create_checks_duplicate_first
                                   (<["handle" := Str "c1"]> ∅)
                                   (fun _ => mkQueryResult [])))
                     _)).
    reflexivity.
Defined.

(** X7.  [Job.create] asks for a job of the same company with the same title
    first, binding the company handle and then the title.  A row in the
    answer makes it reject with "Duplicate company: <company_handle>" before
    any INSERT; otherwise the INSERT follows, binding title, salary, equity
    and company handle in this order, and its first row is the result. *)
Theorem job_create_checks_duplicate_first (data : gmap string value) db :
  (rows (db (Job.createCheckQuery (prop data "company_handle") (prop data "title")))
     <> [] ->
   queriesIssued db (Job.create data)
     = [Job.createCheckQuery (prop data "company_handle") (prop data "title")] /\
   settle db (Job.create data)
     = Throw (BadRequestError
                ("Duplicate company: " +:+ ToString (prop data "company_handle"))))
  /\
  (rows (db (Job.createCheckQuery (prop data "company_handle") (prop data "title")))
     = [] ->
   queriesIssued db (Job.create data)
     = [Job.createCheckQuery (prop data "company_handle") (prop data "title");
        Job.createInsertQuery
          (prop data "title") (prop data "salary") (prop data "equity")
          (prop data "company_handle")] /\
   settle db (Job.create data)
     = Normal (head (rows (db (Job.createInsertQuery
                                 (prop data "title") (prop data "salary")
                                 (prop data "equity")
                                 (prop data "company_handle"))))))
  /\
  Forall wellBound (queriesIssued db (Job.create data)).
Proof.
  unfold Job.create. cbn [queriesIssued settle].
  destruct (rows (db (Job.createCheckQuery _ _))) as [|r rs];
    cbn [head queriesIssued settle];
    (split; [|split]); try easy; repeat constructor.
Qed.

Lemma job_create_checks_duplicate_first_witness :
  (rows (mkQueryResult [[("title", Str "test")]]) <> [] /\
   settle (fun _ => mkQueryResult [[("title", Str "test")]])
     (Job.create (<["title" := Str "test"]> (<["company_handle" := Str "c1"]> ∅)))
   = Throw (BadRequestError "Duplicate company: c1"))
  /\
  (rows (mkQueryResult []) = [] /\
   settle (fun _ => mkQueryResult [])
     (Job.create (<["title" := Str "test"]> (<["company_handle" := Str "c1"]> ∅)))
   = Normal None).
Proof.
  split.
  - split; [discriminate|].
    refine (proj2 (proj1 (job_create_checks_duplicate_first
                            (<["title" := Str "test"]>
                               (<["company_handle" := Str "c1"]> ∅))
                            (fun _ => mkQueryResult [[("title", Str "test")]]))
                     _)).
    discriminate.
  - split; [reflexivity|].
    refine (proj2 (proj1 (proj2 (job_create_checks_duplicate_first
                                   (<["title" := Str "test"]>
                                      (<["company_handle" := Str "c1"]> ∅))
                                   (fun _ => mkQueryResult [])))
                     _)).
    reflexivity.
Defined.

(** X8.  [Company.remove] and [Job.remove] send one DELETE, bound to the
    identifier alone, and resolve exactly when the database answers with a
    row; with no row they reject with a [NotFoundError], whose message reads
    "No company: <id>" in both models.  [Job.remove] logs the identifier it
    was given. *)
Theorem remove_resolves_iff_row_deleted :
  (forall handle db,
      queriesIssued db (Company.remove handle) = [Company.removeQuery handle] /\
      wellBound (Company.removeQuery handle) /\
      (settle db (Company.remove handle) = Normal tt <->
       rows (db (Company.removeQuery handle)) <> []) /\
      (settle db (Company.remove handle)
         = Throw (NotFoundError ("No company: " +:+ ToString handle)) <->
       rows (db (Company.removeQuery handle)) = []))
  /\
  (forall id db,
      fst (Job.remove id) = [id] /\
      queriesIssued db (snd (Job.remove id)) = [Job.removeQuery id] /\
      wellBound (Job.removeQuery id) /\
      (settle db (snd (Job.remove id)) = Normal tt <->
       rows (db (Job.removeQuery id)) <> []) /\
      (settle db (snd (Job.remove id))
         = Throw (NotFoundError ("No company: " +:+ ToString id)) <->
       rows (db (Job.removeQuery id)) = [])).
Proof.
  split.
  - intros handle db. unfold Company.remove. cbn [queriesIssued settle].
    destruct (rows (db (Company.removeQuery handle))) as [|r rs];
      cbn [head queriesIssued settle]; repeat split; easy.
  - intros id db. unfold Job.remove. cbn [fst snd queriesIssued settle].
    destruct (rows (db (Job.removeQuery id))) as [|r rs];
      cbn [head queriesIssued settle]; repeat split; easy.
Qed.

(** X9.  [Company.get] sends one statement, bound to the handle alone, and
    resolves to the first row of the answer; when the answer has no row it
    rejects with the [NotFoundError] "No company: <handle>". *)
Theorem company_get_first_row_or_not_found handle db :
  queriesIssued db (Company.get handle) = [Company.getQuery handle] /\
  wellBound (Company.getQuery handle) /\
  (forall company others,
      rows (db (Company.getQuery handle)) = company :: others ->
      settle db (Company.get handle) = Normal company) /\
  (rows (db (Company.getQuery handle)) = [] ->
   settle db (Company.get handle)
     = Throw (NotFoundError ("No company: " +:+ ToString handle))).
Proof.
  unfold Company.get. cbn [queriesIssued settle].
  destruct (rows (db (Company.getQuery handle))) as [|r rs];
    cbn [head queriesIssued settle]; repeat split; try easy.
  intros company others [= -> _]. reflexivity.
Qed.

Lemma company_get_first_row_or_not_found_witness :
  (rows (mkQueryResult [[("handle", Str "c1")]; [("handle", Str "c1")]])
   = [("handle", Str "c1")] :: [[("handle", Str "c1")]] /\
   settle (fun _ => mkQueryResult [[("handle", Str "c1")]; [("handle", Str "c1")]])
     (Company.get (Str "c1"))
   = Normal [("handle", Str "c1")])
  /\
  (rows (mkQueryResult []) = [] /\
   settle (fun _ => mkQueryResult []) (Company.get (Str "nope"))
   = Throw (NotFoundError "No company: nope")).
Proof.
  split.
  - split; [reflexivity|].
    apply (proj1 (proj2 (proj2 (company_get_first_row_or_not_found (Str "c1")
             (fun _ => mkQueryResult
                         [[("handle", Str "c1")]; [("handle", Str "c1")]]))))
             [("handle", Str "c1")] [[("handle", Str "c1")]]).
    reflexivity.
  - split; [reflexivity|].
    apply (proj2 (proj2 (proj2 (company_get_first_row_or_not_found (Str "nope")
             (fun _ => mkQueryResult []))))).
    reflexivity.
Defined.

(* ================================================================== *)
(** ** update *)
(* ================================================================== *)

(** Reading a text up to a separator and reading what follows it are
    independent. *)
Lemma scan_app_separator a c b st :
  separator c ->
  Sql.scan st (a +:+ String c b) = Sql.scan st a ++ Sql.scan Sql.Outside b.
Proof.
  intros [Hd Hc]. revert st.
  induction a as [|x a IH]; intros st.
  - change ("" +:+ String c b) with (String c b). cbn [Sql.scan].
    rewrite Hd, Hc. now destruct st.
  - change (String x a +:+ String c b) with (String x (a +:+ String c b)).
    cbn [Sql.scan].
    destruct (Sql.digitOf x), st; rewrite ?IH, ?app_assoc; reflexivity.
Qed.

Lemma scan_separator st c b :
  separator c ->
  Sql.scan st (String c b) = Sql.flush st ++ Sql.scan Sql.Outside b.
Proof. intros [Hd Hc]. cbn [Sql.scan]. now rewrite Hd, Hc. Qed.

Lemma scan_digit_in_index acc k x s :
  Sql.digitOf x = Some k ->
  Sql.scan (Sql.InIndex acc) (String x s)
  = Sql.scan (Sql.InIndex (10 * acc + k)) s.
Proof. intros H. cbn [Sql.scan]. now rewrite H. Qed.

Lemma scan_digit_after_dollar k x s :
  Sql.digitOf x = Some k ->
  Sql.scan Sql.AfterDollar (String x s) = Sql.scan (Sql.InIndex k) s.
Proof. intros H. cbn [Sql.scan]. now rewrite H. Qed.

(** The digits that [nat_to_string] prints are read back as the number. *)
Lemma scan_digits_acc d acc c b :
  separator c ->
  Sql.scan (Sql.InIndex acc) (NilEmpty.string_of_uint d +:+ String c b)
  = Nat.of_uint_acc d acc :: Sql.scan Sql.Outside b.
Proof.
  intros Hsep. revert acc.
  induction d as [|d IH|d IH|d IH|d IH|d IH|d IH|d IH|d IH|d IH|d IH];
    intros acc;
    [ now rewrite (scan_separator _ c b Hsep) | .. ];
    cbn [NilEmpty.string_of_uint]; push_append;
    erewrite scan_digit_in_index by reflexivity;
    rewrite IH; cbn [Nat.of_uint_acc]; rewrite Nat.tail_mul_spec;
    do 2 f_equal;
    match goal with
    | |- context [nat_of_ascii ?ch - 48] =>
        let v := eval vm_compute in (nat_of_ascii ch - 48) in
        change (nat_of_ascii ch - 48) with v
    end; lia.
Qed.

Lemma scan_placeholder n c b :
  separator c ->
  Sql.scan Sql.AfterDollar (nat_to_string n +:+ String c b)
  = n :: Sql.scan Sql.Outside b.
Proof.
  intros Hsep. unfold nat_to_string.
  rewrite <- (DecimalNat.Unsigned.of_to n) at 2.
  destruct (Nat.to_uint n) as [|d|d|d|d|d|d|d|d|d|d];
    cbn [NilZero.string_of_uint NilEmpty.string_of_uint]; push_append;
    erewrite scan_digit_after_dollar by reflexivity;
    [ now rewrite (scan_separator _ c b Hsep) | .. ];
    rewrite scan_digits_acc by exact Hsep; reflexivity.
Qed.

Lemma separator_space : separator " ".
Proof. split; reflexivity. Qed.

(** A text without a dollar sign is read through without a placeholder. *)
Lemma scan_outside_plain p x :
  Sql.occursIn "$" p = false ->
  Sql.scan Sql.Outside (p +:+ x) = Sql.scan Sql.Outside x.
Proof.
  induction p as [|c p IH]; intros Hp; [reflexivity|].
  change (String c p +:+ x) with (String c (p +:+ x)).
  cbn [Sql.occursIn String.prefix] in Hp.
  destruct (ascii_dec "$" c) as [<-|Hc].
  - now destruct p.
  - cbn [Sql.scan].
    destruct (Sql.digitOf c); [now apply IH|].
    destruct (Ascii.eqb_spec c "$"); [congruence|]. now apply IH.
Qed.

(** The shape of the two UPDATE statements: a text without placeholder, the
    SET clause, a space, a text without placeholder, the placeholder of the
    identifier, a space, and a text without placeholder. *)
Lemma placeholders_update_shape p1 s p2 n p3 :
  Sql.occursIn "$" p1 = false ->
  Sql.occursIn "$" p2 = false ->
  Sql.scan Sql.Outside p3 = [] ->
  Sql.placeholders
    (p1 +:+ s +:+
     String " " (p2 +:+ String "$" (nat_to_string n +:+ String " " p3)))
  = Sql.placeholders s ++ [n].
Proof.
  intros H1 H2 H3. unfold Sql.placeholders.
  rewrite (scan_outside_plain p1 _ H1).
  rewrite (scan_app_separator s " " _ _ separator_space).
  rewrite (scan_outside_plain p2 _ H2).
  change (Sql.scan Sql.Outside (String "$" ?t))
    with (Sql.scan Sql.AfterDollar t).
  rewrite (scan_placeholder n " " p3 separator_space), H3. reflexivity.
Qed.

Ltac by_update_shape :=
  match goal with
  | |- Sql.placeholders
         (?a +:+ ?n1 +:+ ?b +:+ ?s +:+ ?sp1 +:+ ?n2 +:+ ?c +:+
          (?d +:+ ?k) +:+ ?sp2 +:+ ?rest) = _ =>
      exact (placeholders_update_shape (a +:+ n1 +:+ b) s (n2 +:+ c) _ rest
               eq_refl eq_refl eq_refl)
  end.

(** X10.  The statement [Job.update] and [Company.update] build around a SET
    clause is well bound whenever the SET clause is: if the clause holds the
    placeholders [$1 .. $n] for its [n] values, the statement holds
    [$1 .. $n+1] and is sent with the [n] values followed by the
    identifier. *)
Theorem update_statement_well_bound id u :
  Sql.placeholders (setCols u) = seq 1 (length (values u)) ->
  wellBound (Job.updateQuery id u) /\ wellBound (Company.updateQuery id u).
Proof.
  intros Hset. unfold wellBound, Job.updateQuery, Company.updateQuery.
  cbn [queryValues queryText].
  rewrite length_app, seq_app, <- Hset. cbn [length seq].
  rewrite Nat.add_comm. split; by_update_shape.
Qed.

Lemma update_statement_well_bound_witness :
  Sql.placeholders "title = $1, salary = $2" = seq 1 2 /\
  wellBound (Job.updateQuery (Num (Int 7))
               {| setCols := "title = $1, salary = $2";
                  values := [Str "TESTTEST"; Num (Int 90000)] |}) /\
  wellBound (Company.updateQuery (Num (Int 7))
               {| setCols := "title = $1, salary = $2";
                  values := [Str "TESTTEST"; Num (Int 90000)] |}).
Proof.
  split; [reflexivity|].
  exact (update_statement_well_bound (Num (Int 7))
           {| setCols := "title = $1, salary = $2";
              values := [Str "TESTTEST"; Num (Int 90000)] |} eq_refl).
Defined.

(** X11.  [Job.update] around [sqlForPartialUpdate], whatever that function
    is.  When it throws, [update] rejects with the same error and sends
    nothing.  When it returns a SET clause and values, [update] sends exactly
    one statement, with the values followed by the identifier, and resolves to
    the first row of the answer, or rejects with the [NotFoundError]
    "No job: <id>" when the answer has no row. *)
Theorem job_update_outcome
  (helper : list (string * value) -> gmap string string
            -> completion PartialUpdate) id data db :
  (forall e,
      helper data Job.jsToSql = Throw e ->
      queriesIssued db (Job.updateWith helper id data) = [] /\
      settle db (Job.updateWith helper id data) = Throw e)
  /\
  (forall u,
      helper data Job.jsToSql = Normal u ->
      queriesIssued db (Job.updateWith helper id data)
        = [Job.updateQuery id u] /\
      queryValues (Job.updateQuery id u) = ValuesArray (values u ++ [id]) /\
      (rows (db (Job.updateQuery id u)) = [] ->
       settle db (Job.updateWith helper id data)
         = Throw (NotFoundError ("No job: " +:+ ToString id))) /\
      (forall job others,
          rows (db (Job.updateQuery id u)) = job :: others ->
          settle db (Job.updateWith helper id data) = Normal job))
  /\
  Job.update id data = Job.updateWith sqlForPartialUpdate id data.
Proof.
  unfold Job.updateWith. split; [|split; [|reflexivity]].
  - intros e ->. split; reflexivity.
  - intros u ->. cbn [liftCompletion bind queriesIssued settle].
    split; [|split; [reflexivity|split]].
    + now destruct (rows (db (Job.updateQuery id u))).
    + now intros ->.
    + now intros job others ->.
Qed.

Lemma job_update_outcome_witness :
  settle (fun _ => mkQueryResult [])
    (Job.updateWith (fun _ _ => Throw (TypeError "not an object"))
       (Num (Int 1)) []) = Throw (TypeError "not an object")
  /\
  settle (fun _ => mkQueryResult [])
    (Job.updateWith
       (fun d _ => Normal {| setCols := "salary=$1"; values := map snd d |})
       (Num (Int 0)) [("salary", Num (Int 5))])
    = Throw (NotFoundError "No job: 0").
Proof.
  split.
  - exact (proj2 (proj1 (job_update_outcome
                           (fun _ _ => Throw (TypeError "not an object"))
                           (Num (Int 1)) [] (fun _ => mkQueryResult []))
                    (TypeError "not an object") eq_refl)).
  - exact (proj1 (proj2 (proj2 (proj1 (proj2 (job_update_outcome
             (fun d _ => Normal {| setCols := "salary=$1"; values := map snd d |})
             (Num (Int 0)) [("salary", Num (Int 5))]
             (fun _ => mkQueryResult [])))
             {| setCols := "salary=$1"; values := [Num (Int 5)] |} eq_refl)))
             eq_refl).
Defined.

(** X12.  [Company.update] does the same around its own column map, whatever
    [sqlForPartialUpdate] is: nothing is sent when it throws; otherwise one
    statement is sent, with the values followed by the handle, and the
    outcome is the first row of the answer or the [NotFoundError]
    "No company: <handle>". *)
Theorem company_update_outcome
  (helper : list (string * value) -> gmap string string
            -> completion PartialUpdate) handle data db :
  (forall e,
      helper data Company.jsToSql = Throw e ->
      queriesIssued db (Company.updateWith helper handle data) = [] /\
      settle db (Company.updateWith helper handle data) = Throw e)
  /\
  (forall u,
      helper data Company.jsToSql = Normal u ->
      queriesIssued db (Company.updateWith helper handle data)
        = [Company.updateQuery handle u] /\
      queryValues (Company.updateQuery handle u)
        = ValuesArray (values u ++ [handle]) /\
      (rows (db (Company.updateQuery handle u)) = [] ->
       settle db (Company.updateWith helper handle data)
         = Throw (NotFoundError ("No company: " +:+ ToString handle))) /\
      (forall company others,
          rows (db (Company.updateQuery handle u)) = company :: others ->
          settle db (Company.updateWith helper handle data) = Normal company))
  /\
  Company.update handle data
    = Company.updateWith sqlForPartialUpdate handle data.
Proof.
  unfold Company.updateWith. split; [|split; [|reflexivity]].
  - intros e ->. split; reflexivity.
  - intros u ->. cbn [liftCompletion bind queriesIssued settle].
    split; [|split; [reflexivity|split]].
    + now destruct (rows (db (Company.updateQuery handle u))).
    + now intros ->.
    + now intros company others ->.
Qed.

Lemma company_update_outcome_witness :
  settle (fun _ => mkQueryResult [])
    (Company.updateWith (fun _ _ => Throw (TypeError "not an object"))
       (Str "c1") []) = Throw (TypeError "not an object")
  /\
  settle (fun _ => mkQueryResult [])
    (Company.updateWith
       (fun d _ => Normal {| setCols := "name=$1"; values := map snd d |})
       (Str "nope") [("name", Str "New")])
    = Throw (NotFoundError "No company: nope").
Proof.
  split.
  - exact (proj2 (proj1 (company_update_outcome
                           (fun _ _ => Throw (TypeError "not an object"))
                           (Str "c1") [] (fun _ => mkQueryResult []))
                    (TypeError "not an object") eq_refl)).
  - exact (proj1 (proj2 (proj2 (proj1 (proj2 (company_update_outcome
             (fun d _ => Normal {| setCols := "name=$1"; values := map snd d |})
             (Str "nope") [("name", Str "New")]
             (fun _ => mkQueryResult [])))
             {| setCols := "name=$1"; values := [Str "New"] |} eq_refl)))
             eq_refl).
Defined.

(* ================================================================== *)
(** ** The routes *)
(* ================================================================== *)

(** X13.  GET /jobs reads [title], [minSalary] and [hasEquity] off the query
    and nothing else: any other parameter leaves the handler unchanged.  It
    sends the one statement of [Job.findAll] for the three values and answers
    with the rows of the database under [jobs]. *)
Theorem getJobs_responds_with_rows :
  (forall (query : gmap string value) db,
      exists r,
        Job.createFilterSql
          (prop query "title") (prop query "minSalary") (prop query "hasEquity")
          = Resolve r /\
        queriesIssued db (JobRoutes.getJobs query) = [Job.findAllQuery r] /\
        settle db (JobRoutes.getJobs query)
          = Normal (JobRoutes.Json
                      (JobRoutes.JobsBody (rows (db (Job.findAllQuery r))))))
  /\
  (forall (query : gmap string value) key v,
      key <> "title" -> key <> "minSalary" -> key <> "hasEquity" ->
      JobRoutes.getJobs (<[key := v]> query) = JobRoutes.getJobs query).
Proof.
  split.
  - intros query db. unfold JobRoutes.getJobs, Job.findAll.
    rewrite job_createFilterSql_refines. eexists. split; [reflexivity|].
    split; reflexivity.
  - intros query key v Ht Hs He. unfold JobRoutes.getJobs, prop.
    now rewrite !lookup_insert_ne by done.
Qed.

Lemma getJobs_responds_with_rows_witness :
  ("page" <> "title" /\ "page" <> "minSalary" /\ "page" <> "hasEquity") /\
  JobRoutes.getJobs (<["page" := Str "2"]> (<["title" := Str "test"]> ∅))
  = JobRoutes.getJobs (<["title" := Str "test"]> ∅).
Proof.
  split; [repeat split; discriminate|].
  apply (proj2 getJobs_responds_with_rows
           (<["title" := Str "test"]> ∅) "page" (Str "2")); discriminate.
Defined.

(** X14.  DELETE /jobs/:id answers [{ deleted: id }] exactly when the DELETE
    statement of [Job.remove] came back with a row, and hands the
    [NotFoundError] to [next] exactly when it came back with none; the
    handler itself never rejects. *)
Theorem deleteJob_responds_or_forwards id db :
  fst (JobRoutes.deleteJob id) = [id] /\
  queriesIssued db (snd (JobRoutes.deleteJob id)) = [Job.removeQuery id] /\
  (settle db (snd (JobRoutes.deleteJob id))
     = Normal (JobRoutes.Json (JobRoutes.DeletedBody id)) <->
   rows (db (Job.removeQuery id)) <> []) /\
  (settle db (snd (JobRoutes.deleteJob id))
     = Normal (JobRoutes.Next
                 (NotFoundError ("No company: " +:+ ToString id))) <->
   rows (db (Job.removeQuery id)) = []) /\
  (forall e, settle db (snd (JobRoutes.deleteJob id)) <> Throw e).
Proof.
  unfold JobRoutes.deleteJob, Job.remove.
  cbn [fst snd bind tryCatch queriesIssued settle].
  destruct (rows (db (Job.removeQuery id))) as [|r rs];
    cbn [head bind tryCatch queriesIssued settle]; repeat split; easy.
Qed.

(* ================================================================== *)
(** ** What is bound to the placeholders *)
(* ================================================================== *)

(** X15.  The bind values of a compiled clause are the supplied inputs, in
    declaration order, each as its string: the name or title followed by the
    wildcard, then the bounds.  [hasEquity] never adds one. *)
Theorem createFilterSql_bind_values :
  (forall stn name minEmployees maxEmployees text vals,
      Company.createFilterSql stn name minEmployees maxEmployees
        = Resolve (Filter text vals) ->
      vals = (if ToBoolean name then [ToString name +:+ "%"] else [])
             ++ (if ToBoolean minEmployees then [ToString minEmployees] else [])
             ++ (if ToBoolean maxEmployees then [ToString maxEmployees] else []))
  /\
  (forall title minSalary hasEquity text vals,
      Job.createFilterSql title minSalary hasEquity
        = Resolve (Filter text vals) ->
      vals = (if ToBoolean title then [ToString title +:+ "%"] else [])
             ++ (if ToBoolean minSalary then [ToString minSalary] else [])).
Proof.
  split.
  - intros stn name mn mx text vals H.
    rewrite company_createFilterSql_refines in H.
    destruct (lt stn mx mn); [discriminate|]. revert H.
    by_supplied name mn mx; intros [= <- <-] || discriminate; reflexivity.
  - intros title ms he text vals H.
    rewrite job_createFilterSql_refines in H. revert H.
    by_supplied title ms he; intros [= <- <-] || discriminate; reflexivity.
Qed.

Lemma createFilterSql_bind_values_witness :
  ["net%"; "50"] = ["net%"] ++ [] ++ ["50"] /\ ["test%"] = ["test%"] ++ [].
Proof.
  split.
  - exact (proj1 createFilterSql_bind_values digitsToNumber
             (Str "net") undefined (Num (Int 50))
             "WHERE name ILIKE $1 AND num_employees < $2" ["net%"; "50"]
             eq_refl).
  - exact (proj2 createFilterSql_bind_values
             (Str "test") (Num (Int 0)) (Bool true)
             "WHERE title ILIKE $1 AND equity > 0" ["test%"] eq_refl).
Defined.
